(** * KeystoneDB Python gRPC client: request builders and scan aggregation

    A shallow embedding of [keystonedb/builders.py] and
    [keystonedb/client.py], followed by the properties of the design
    document that concern them.

    Conventions of the embedding.
    - A Python [dict] keyed by strings is a [gmap string _]; a [bytes]
      object is a list of bytes; an [Optional[_]] attribute is an [option];
      a Python [int] is a [Z]. Arguments have the types of the source's
      annotations ([bytes] keys, [str] names and number texts, [int]
      limits and segments).
    - A chained mutator ([with_...]) assigns attributes of [self] and returns
      [self]: it is a function from the builder before the call to the
      builder after it.
    - A method that can return or raise ([build], [close], [scan]) yields a
      [Run]: its outcome, the object after the call, and the remote calls it
      issued through the stub. *)

From Stdlib Require Import ZArith Strings.Byte.
From stdpp Require Import gmap strings list fin_maps.

Open Scope Z_scope.

(** ** Python values and control flow *)

Definition bytes : Type := list byte.

(** Python compares [bytes] lexicographically on the unsigned byte values,
    a proper prefix being smaller. *)
Fixpoint bytes_ltb (a b : bytes) : bool :=
  match a, b with
  | _, [] => false
  | [], _ :: _ => true
  | x :: a', y :: b' =>
      if (Byte.to_N x <? Byte.to_N y)%N then true
      else if (Byte.to_N x =? Byte.to_N y)%N then bytes_ltb a' b'
      else false
  end.

(** [lower > upper] on two [bytes] objects. *)
Definition bytes_gt (lower upper : bytes) : Prop := bytes_ltb upper lower = true.

(** An exception object: the name of its class and its message ([str(e)]). *)
Record PyException := mkException { exc_class : string; exc_message : string }.

(** [Exception(msg)], the built-in base class: the only exception the two
    modules construct. *)
Definition Exception (msg : string) : PyException := mkException "Exception" msg.

Inductive Outcome (A : Type) : Type :=
| Return (a : A)
| Raise (e : PyException).
Arguments Return {A} a.
Arguments Raise {A} e.


(** The outcome is an exception of the class called [cls]. *)
Definition raises_class {A} (cls : string) (o : Outcome A) : Prop :=
  ∃ e, o = Raise e ∧ exc_class e = cls.

(** Truthiness of a [str]: [if s:] takes the branch iff [s] is not empty. *)
Definition str_truthy (s : string) : bool :=
  match s with
  | EmptyString => false
  | String _ _ => true
  end.

(** ** Messages of [keystone_pb2] *)

(** The keyword dictionaries the put builder stores per attribute:
    [{"string_value": v}], [{"number_value": v}], [{"bool_value": v}],
    [{"binary_value": v}]. Each holds one key, so it is a tagged value. *)
Inductive Kwargs : Type :=
| string_value (v : string)
| number_value (v : string)
| bool_value (v : bool)
| binary_value (v : bytes).

Module pb.

(** Modelled from the spec: the generated module [keystone_pb2] is not part
    of the sources. [Value] is the AttributeValue variant restricted to the
    four fields the builders name; a number is held as its decimal text. *)
Inductive Value : Type :=
| String (text : string)
| Number (text : string)
| Bool (flag : bool)
| Binary (data : bytes).

(** The constructor call of [pb.Value] with the dictionary [val] unpacked
    as its keyword argument. *)
Definition mkValue (val : Kwargs) : Value :=
  match val with
  | string_value v => String v
  | number_value v => Number v
  | bool_value v => Bool v
  | binary_value v => Binary v
  end.

(** Reading a [Value] back: the field that is set, with its content. *)
Definition fields (v : Value) : Kwargs :=
  match v with
  | String t => string_value t
  | Number t => number_value t
  | Bool f => bool_value f
  | Binary d => binary_value d
  end.

(** Modelled from the spec: an Item maps attribute names to values. *)
Record Item := mkItem { attributes : gmap string Value }.

(** Modelled from the spec: PutRequest is a key, an item, an optional
    condition expression and bindings. An optional field that was never
    assigned is [None]. *)
Module PutRequest.
Record t := mk {
  partition_key : bytes;
  sort_key : option bytes;
  item : Item;
  condition_expression : option string;
  expression_values : gmap string Value
}.
End PutRequest.

(** Modelled from the spec: GetRequest is a key. *)
Module GetRequest.
Record t := mk {
  partition_key : bytes;
  sort_key : option bytes
}.
End GetRequest.

(** Modelled from the spec: a chunk of the Scan stream carries an ordered
    sequence of items and an error text, empty when there is no error. *)
Module ScanResponse.
Record t := mk {
  items : list Item;
  error : string
}.
End ScanResponse.

End pb.

(** The sort-key condition dictionaries of the query builder:
    [{"equal_to": v}], [{"begins_with": v}] and
    [{"between": {"lower": l, "upper": u}}]. Sort keys are [bytes]. *)
Inductive SortKeyCondition : Type :=
| equal_to (value : bytes)
| begins_with (value : bytes)
| between (lower upper : bytes).

(** The dictionary [QueryRequestBuilder.build] returns. *)
Module QueryRequest.
Record t := mk {
  partition_key : bytes;
  sort_key_condition : option SortKeyCondition;
  filter_expression : option string;
  expression_values : gmap string Kwargs;
  index_name : option string;
  limit : option Z;
  exclusive_start_key : option (gmap string Kwargs);
  scan_forward : option bool
}.
End QueryRequest.

(** The dictionary [ScanRequestBuilder.build] returns. *)
Module ScanRequest.
Record t := mk {
  filter_expression : option string;
  expression_values : gmap string Kwargs;
  limit : option Z;
  exclusive_start_key : option (gmap string Kwargs);
  index_name : option string;
  segment : option Z;
  total_segments : option Z
}.
End ScanRequest.

(** ** Method runs *)

(** A call through the stub, with the request it sends. *)
Inductive RpcCall : Type :=
| RpcPut (request : pb.PutRequest.t)
| RpcGet (request : pb.GetRequest.t)
| RpcQuery (request : QueryRequest.t)
| RpcScan (request : ScanRequest.t).

Record Run (S A : Type) := mkRun {
  outcome : Outcome A;
  self_after : S;
  rpc_calls : list RpcCall
}.
Arguments mkRun {S A} outcome self_after rpc_calls.
Arguments outcome {S A} r.
Arguments self_after {S A} r.
Arguments rpc_calls {S A} r.

(** [return a] in a method that touched neither [self] nor the stub. *)
Definition returns {S A} (self : S) (a : A) : Run S A := mkRun (Return a) self [].

(** Truthiness of a [dict]: [if d:] takes the branch iff [d] has an entry. *)
Definition dict_truthy {V} (d : gmap string V) : bool := negb (Nat.eqb (size d) 0).

(** Assignments to the optional fields of a request message. *)
Definition PutRequest_set_sort_key (v : bytes) (r : pb.PutRequest.t) : pb.PutRequest.t :=
  pb.PutRequest.mk (pb.PutRequest.partition_key r) (Some v) (pb.PutRequest.item r)
    (pb.PutRequest.condition_expression r) (pb.PutRequest.expression_values r).

Definition PutRequest_set_condition_expression (v : string) (r : pb.PutRequest.t)
  : pb.PutRequest.t :=
  pb.PutRequest.mk (pb.PutRequest.partition_key r) (pb.PutRequest.sort_key r)
    (pb.PutRequest.item r) (Some v) (pb.PutRequest.expression_values r).

(** The loop [for k, v in d.items(): request.expression_values[k].CopyFrom(...)]
    on a request whose binding table is still empty: every key of [d] is
    bound to the message built from its keyword dictionary. *)
Definition PutRequest_copy_expression_values (d : gmap string Kwargs)
    (r : pb.PutRequest.t) : pb.PutRequest.t :=
  pb.PutRequest.mk (pb.PutRequest.partition_key r) (pb.PutRequest.sort_key r)
    (pb.PutRequest.item r) (pb.PutRequest.condition_expression r)
    (map_fold (λ k v acc, <[k := pb.mkValue v]> acc) (pb.PutRequest.expression_values r) d).

Definition GetRequest_set_sort_key (v : bytes) (r : pb.GetRequest.t) : pb.GetRequest.t :=
  pb.GetRequest.mk (pb.GetRequest.partition_key r) (Some v).

(** ** [builders.py] *)

Module PutRequestBuilder.

Record t := mk {
  partition_key : bytes;
  sort_key : option bytes;
  attributes : gmap string Kwargs;
  condition : option string;
  expression_values : gmap string Kwargs
}.

Definition __init__ (partition_key : bytes) : t :=
  mk partition_key None ∅ None ∅.

Definition with_sort_key (sort_key : bytes) (self : t) : t :=
  mk (partition_key self) (Some sort_key) (attributes self) (condition self)
    (expression_values self).

(** [self.attributes[name] = val] *)
Definition set_attribute (name : string) (val : Kwargs) (self : t) : t :=
  mk (partition_key self) (sort_key self) (<[name := val]> (attributes self))
    (condition self) (expression_values self).

Definition with_string (name value : string) (self : t) : t :=
  set_attribute name (string_value value) self.

Definition with_number (name value : string) (self : t) : t :=
  set_attribute name (number_value value) self.

Definition with_bool (name : string) (value : bool) (self : t) : t :=
  set_attribute name (bool_value value) self.

Definition with_binary (name : string) (value : bytes) (self : t) : t :=
  set_attribute name (binary_value value) self.

Definition with_condition (condition : string) (self : t) : t :=
  mk (partition_key self) (sort_key self) (attributes self) (Some condition)
    (expression_values self).

Definition build (self : t) : Run t pb.PutRequest.t :=
  let item := pb.mkItem (pb.mkValue <$> attributes self) in
  let request := pb.PutRequest.mk (partition_key self) None item None ∅ in
  let request :=
    match sort_key self with
    | Some sk => PutRequest_set_sort_key sk request
    | None => request
    end in
  let request :=
    match condition self with
    | Some c => PutRequest_set_condition_expression c request
    | None => request
    end in
  let request :=
    if dict_truthy (expression_values self)
    then PutRequest_copy_expression_values (expression_values self) request
    else request in
  returns self request.

End PutRequestBuilder.

Module GetRequestBuilder.

Record t := mk {
  partition_key : bytes;
  sort_key : option bytes
}.

Definition __init__ (partition_key : bytes) : t := mk partition_key None.

Definition with_sort_key (sort_key : bytes) (self : t) : t :=
  mk (partition_key self) (Some sort_key).

Definition build (self : t) : Run t pb.GetRequest.t :=
  let request := pb.GetRequest.mk (partition_key self) None in
  let request :=
    match sort_key self with
    | Some sk => GetRequest_set_sort_key sk request
    | None => request
    end in
  returns self request.

End GetRequestBuilder.

Module QueryRequestBuilder.

Record t := mk {
  partition_key : bytes;
  sort_key_condition : option SortKeyCondition;
  filter_expression : option string;
  expression_values : gmap string Kwargs;
  index_name : option string;
  limit : option Z;
  exclusive_start_key : option (gmap string Kwargs);
  scan_forward : option bool
}.

Definition __init__ (partition_key : bytes) : t :=
  mk partition_key None None ∅ None None None None.

(** [self.sort_key_condition = c] *)
Definition set_sort_key_condition (c : SortKeyCondition) (self : t) : t :=
  mk (partition_key self) (Some c) (filter_expression self) (expression_values self)
    (index_name self) (limit self) (exclusive_start_key self) (scan_forward self).

Definition with_sort_key_equal (value : bytes) (self : t) : t :=
  set_sort_key_condition (equal_to value) self.

Definition with_sort_key_begins_with (value : bytes) (self : t) : t :=
  set_sort_key_condition (begins_with value) self.

Definition with_sort_key_between (lower upper : bytes) (self : t) : t :=
  set_sort_key_condition (between lower upper) self.

Definition with_limit (limit' : Z) (self : t) : t :=
  mk (partition_key self) (sort_key_condition self) (filter_expression self)
    (expression_values self) (index_name self) (Some limit')
    (exclusive_start_key self) (scan_forward self).

Definition with_index (index_name' : string) (self : t) : t :=
  mk (partition_key self) (sort_key_condition self) (filter_expression self)
    (expression_values self) (Some index_name') (limit self)
    (exclusive_start_key self) (scan_forward self).

Definition with_scan_forward (forward : bool) (self : t) : t :=
  mk (partition_key self) (sort_key_condition self) (filter_expression self)
    (expression_values self) (index_name self) (limit self)
    (exclusive_start_key self) (Some forward).

Definition build (self : t) : Run t QueryRequest.t :=
  returns self
    (QueryRequest.mk (partition_key self) (sort_key_condition self)
       (filter_expression self) (expression_values self) (index_name self)
       (limit self) (exclusive_start_key self) (scan_forward self)).

End QueryRequestBuilder.

Module ScanRequestBuilder.

Record t := mk {
  filter_expression : option string;
  expression_values : gmap string Kwargs;
  limit : option Z;
  exclusive_start_key : option (gmap string Kwargs);
  index_name : option string;
  segment : option Z;
  total_segments : option Z
}.

Definition __init__ : t := mk None ∅ None None None None None.

Definition with_limit (limit' : Z) (self : t) : t :=
  mk (filter_expression self) (expression_values self) (Some limit')
    (exclusive_start_key self) (index_name self) (segment self) (total_segments self).

Definition with_segment (segment' total_segments' : Z) (self : t) : t :=
  mk (filter_expression self) (expression_values self) (limit self)
    (exclusive_start_key self) (index_name self) (Some segment') (Some total_segments').

Definition build (self : t) : Run t ScanRequest.t :=
  returns self
    (ScanRequest.mk (filter_expression self) (expression_values self) (limit self)
       (exclusive_start_key self) (index_name self) (segment self)
       (total_segments self)).

End ScanRequestBuilder.

(** ** Call sequences on a builder *)

(** One call on a [ScanRequestBuilder]; [build] may be called at any point
    of a chain and leaves the builder as [self_after] says. *)
Inductive ScanBuilderCall : Type :=
| scan_with_limit (limit : Z)
| scan_with_segment (segment total_segments : Z)
| scan_build.

Definition scan_builder_call (c : ScanBuilderCall) (self : ScanRequestBuilder.t)
  : ScanRequestBuilder.t :=
  match c with
  | scan_with_limit l => ScanRequestBuilder.with_limit l self
  | scan_with_segment s n => ScanRequestBuilder.with_segment s n self
  | scan_build => self_after (ScanRequestBuilder.build self)
  end.

Definition scan_builder_calls (cs : list ScanBuilderCall) (self : ScanRequestBuilder.t)
  : ScanRequestBuilder.t :=
  fold_left (λ b c, scan_builder_call c b) cs self.

(** One call on a [QueryRequestBuilder]. *)
Inductive QueryBuilderCall : Type :=
| query_with_sort_key_equal (value : bytes)
| query_with_sort_key_begins_with (value : bytes)
| query_with_sort_key_between (lower upper : bytes)
| query_with_limit (limit : Z)
| query_with_index (index_name : string)
| query_with_scan_forward (forward : bool)
| query_build.

Definition query_builder_call (c : QueryBuilderCall) (self : QueryRequestBuilder.t)
  : QueryRequestBuilder.t :=
  match c with
  | query_with_sort_key_equal v => QueryRequestBuilder.with_sort_key_equal v self
  | query_with_sort_key_begins_with v => QueryRequestBuilder.with_sort_key_begins_with v self
  | query_with_sort_key_between l u => QueryRequestBuilder.with_sort_key_between l u self
  | query_with_limit l => QueryRequestBuilder.with_limit l self
  | query_with_index i => QueryRequestBuilder.with_index i self
  | query_with_scan_forward f => QueryRequestBuilder.with_scan_forward f self
  | query_build => self_after (QueryRequestBuilder.build self)
  end.

Definition query_builder_calls (cs : list QueryBuilderCall) (self : QueryRequestBuilder.t)
  : QueryRequestBuilder.t :=
  fold_left (λ b c, query_builder_call c b) cs self.

(** The condition a call asks for, when it is one of the three sort-key
    mutators. *)
Definition sort_key_call (c : QueryBuilderCall) : option SortKeyCondition :=
  match c with
  | query_with_sort_key_equal v => Some (equal_to v)
  | query_with_sort_key_begins_with v => Some (begins_with v)
  | query_with_sort_key_between l u => Some (between l u)
  | _ => None
  end.

(** The condition of the last sort-key mutator of a call sequence, [dflt]
    when the sequence has none. *)
Fixpoint last_sort_key_call (cs : list QueryBuilderCall) (dflt : option SortKeyCondition)
  : option SortKeyCondition :=
  match cs with
  | [] => dflt
  | c :: cs' =>
      last_sort_key_call cs'
        (match sort_key_call c with Some k => Some k | None => dflt end)
  end.

(** The sort-key mutator that asks for a given condition. *)
Definition sort_key_mutator (k : SortKeyCondition) : QueryRequestBuilder.t → QueryRequestBuilder.t :=
  match k with
  | equal_to v => QueryRequestBuilder.with_sort_key_equal v
  | begins_with v => QueryRequestBuilder.with_sort_key_begins_with v
  | between l u => QueryRequestBuilder.with_sort_key_between l u
  end.

(** ** [client.py] *)

(** What the response iterator of [self._stub.Scan] does each time the loop
    of [scan] asks it for its next element: it yields a chunk, or the call
    raises (a transport failure such as [grpc.RpcError]). The end of a list
    of events is the end of the stream. *)
Inductive StreamEvent : Type :=
| yields (response : pb.ScanResponse.t)
| iterator_raises (e : PyException).

Module Client.
Section WithChannel.

(** The channel and the stub belong to the gRPC library. The client only
tests the channel for truthiness and calls its [close]; that method is
a parameter here. *)
Context {Channel Stub : Type}.
Variable channel_close : Channel → Outcome unit * Channel.

(** [_channel] is [None] or a channel object; any channel object is
truthy. *)
Record t := mk {
_channel : option Channel;
_stub : Stub
}.

Definition __init__ (channel : option Channel) (stub : Stub) : t := mk channel stub.

Definition close (self : t) : Run t unit :=
match _channel self with
| Some ch =>
  let (o, ch') := channel_close ch in
  mkRun o (mk (Some ch') (_stub self)) []
| None => returns self tt
end.

Definition __exit__ (self : t) : Run t unit := close self.

(** [n] calls of [close] in a row: the outcomes, oldest first, and the
client after the last call. *)
Fixpoint close_times (n : nat) (self : t) : list (Outcome unit) * t :=
match n with
| O => ([], self)
| S n' =>
  let r := close self in
  let (os, self') := close_times n' (self_after r) in
  (outcome r :: os, self')
end.

(** The loop of [scan] over the response iterator of [self._stub.Scan],
given as the chunks it will yield before end-of-stream. The result is
the outcome and the chunks that were never pulled from the iterator. *)
Fixpoint scan_loop (stream : list pb.ScanResponse.t) (items : list pb.Item)
: Outcome (list pb.Item) * list pb.ScanResponse.t :=
match stream with
| [] => (Return items, [])
| response :: rest =>
  if str_truthy (pb.ScanResponse.error response)
  then (Raise (Exception ("Scan error: " +:+ pb.ScanResponse.error response)), rest)
  else scan_loop rest (items ++ pb.ScanResponse.items response)
end.

Definition scan (self : t) (request : ScanRequest.t) (stream : list pb.ScanResponse.t)
: Run t (list pb.Item) * list pb.ScanResponse.t :=
let (o, unread) := scan_loop stream [] in
(mkRun o self [RpcScan request], unread).

(** The loop of [scan] over an iterator that can fail: the loop has no
    [try], so an exception of the iterator leaves [scan] as it is, and the
    items accumulated so far are dropped with the frame. On events that are
    all chunks this is [scan_loop]. *)
Fixpoint scan_loop_events (events : list StreamEvent) (items : list pb.Item)
  : Outcome (list pb.Item) * list StreamEvent :=
  match events with
  | [] => (Return items, [])
  | iterator_raises e :: rest => (Raise e, rest)
  | yields response :: rest =>
      if str_truthy (pb.ScanResponse.error response)
      then (Raise (Exception ("Scan error: " +:+ pb.ScanResponse.error response)), rest)
      else scan_loop_events rest (items ++ pb.ScanResponse.items response)
  end.

Definition scan_events (self : t) (request : ScanRequest.t) (events : list StreamEvent)
  : Run t (list pb.Item) * list StreamEvent :=
  let (o, unread) := scan_loop_events events [] in
  (mkRun o self [RpcScan request], unread).


Definition __enter__ (self : t) : Run t t := returns self self.

(** The statement [with self as target: body], by Python's protocol:
    [__enter__] gives the target, the body runs, then [__exit__] is called
    whether the body returned or raised. [__exit__] returns [None], which is
    falsy, so an exception of the body is raised again after it; an
    exception of [__exit__] itself replaces the body's outcome. The target
    is [self], so the body works on the client's own state. *)
Definition with_statement {A} (self : t) (body : t → Run t A) : Run t A :=
  let entered := __enter__ self in
  match outcome entered with
  | Raise e => mkRun (Raise e) (self_after entered) (rpc_calls entered)
  | Return target =>
      let r := body target in
      let x := __exit__ (self_after r) in
      mkRun (match outcome x with
             | Raise e => Raise e
             | Return _ => outcome r
             end)
        (self_after x) (rpc_calls entered ++ rpc_calls r ++ rpc_calls x)
  end.

End WithChannel.
End Client.

Arguments Client.t : clear implicits.
Arguments Client.mk {Channel Stub} _channel _stub.

(** A channel as the gRPC documentation describes its [close]: the call
    never raises and closing a closed channel changes nothing. Used to
    instantiate the parameter of [Client]. *)
Inductive GrpcChannel : Type := ChannelOpen | ChannelClosed.

Definition grpc_channel_close (ch : GrpcChannel) : Outcome unit * GrpcChannel :=
  (Return tt, ChannelClosed).



(** One call on a [PutRequestBuilder]. *)
Inductive PutBuilderCall : Type :=
| put_with_sort_key (sort_key : bytes)
| put_with_string (name value : string)
| put_with_number (name value : string)
| put_with_bool (name : string) (value : bool)
| put_with_binary (name : string) (value : bytes)
| put_with_condition (condition : string)
| put_build.

Definition put_builder_call (c : PutBuilderCall) (self : PutRequestBuilder.t)
  : PutRequestBuilder.t :=
  match c with
  | put_with_sort_key sk => PutRequestBuilder.with_sort_key sk self
  | put_with_string n v => PutRequestBuilder.with_string n v self
  | put_with_number n v => PutRequestBuilder.with_number n v self
  | put_with_bool n v => PutRequestBuilder.with_bool n v self
  | put_with_binary n v => PutRequestBuilder.with_binary n v self
  | put_with_condition c => PutRequestBuilder.with_condition c self
  | put_build => self_after (PutRequestBuilder.build self)
  end.

Definition put_builder_calls (cs : list PutBuilderCall) (self : PutRequestBuilder.t)
  : PutRequestBuilder.t :=
  fold_left (λ b c, put_builder_call c b) cs self.

(** The attribute name a call writes and the keyword dictionary it stores
    there, when the call is an attribute mutator. *)
Definition attribute_call (c : PutBuilderCall) : option (string * Kwargs) :=
  match c with
  | put_with_string n v => Some (n, string_value v)
  | put_with_number n v => Some (n, number_value v)
  | put_with_bool n v => Some (n, bool_value v)
  | put_with_binary n v => Some (n, binary_value v)
  | _ => None
  end.

(** The dictionary of the last attribute mutator called for [name], [dflt]
    when the sequence has no call for that name. *)
Fixpoint last_attribute_call (cs : list PutBuilderCall) (name : string)
    (dflt : option Kwargs) : option Kwargs :=
  match cs with
  | [] => dflt
  | c :: cs' =>
      last_attribute_call cs' name
        (match attribute_call c with
         | Some (n, v) => if decide (n = name) then Some v else dflt
         | None => dflt
         end)
  end.

(** The argument of the last [with_sort_key] call, and of the last
    [with_condition] call. *)
Fixpoint last_put_sort_key (cs : list PutBuilderCall) (dflt : option bytes)
  : option bytes :=
  match cs with
  | [] => dflt
  | c :: cs' =>
      last_put_sort_key cs'
        (match c with put_with_sort_key sk => Some sk | _ => dflt end)
  end.

Fixpoint last_put_condition (cs : list PutBuilderCall) (dflt : option string)
  : option string :=
  match cs with
  | [] => dflt
  | c :: cs' =>
      last_put_condition cs'
        (match c with put_with_condition e => Some e | _ => dflt end)
  end.

(** The field of the query builder a call assigns; [build] assigns none. *)
Inductive QueryField : Type :=
| field_sort_key_condition
| field_limit
| field_index_name
| field_scan_forward.

Definition query_call_field (c : QueryBuilderCall) : option QueryField :=
  match c with
  | query_with_sort_key_equal _ => Some field_sort_key_condition
  | query_with_sort_key_begins_with _ => Some field_sort_key_condition
  | query_with_sort_key_between _ _ => Some field_sort_key_condition
  | query_with_limit _ => Some field_limit
  | query_with_index _ => Some field_index_name
  | query_with_scan_forward _ => Some field_scan_forward
  | query_build => None
  end.

(** The argument of the last call of [with_limit], [with_index] and
    [with_scan_forward] in a sequence of query builder calls. *)
Fixpoint last_query_limit (cs : list QueryBuilderCall) (dflt : option Z) : option Z :=
  match cs with
  | [] => dflt
  | c :: cs' =>
      last_query_limit cs' (match c with query_with_limit l => Some l | _ => dflt end)
  end.

Fixpoint last_query_index (cs : list QueryBuilderCall) (dflt : option string)
  : option string :=
  match cs with
  | [] => dflt
  | c :: cs' =>
      last_query_index cs' (match c with query_with_index i => Some i | _ => dflt end)
  end.

Fixpoint last_query_scan_forward (cs : list QueryBuilderCall) (dflt : option bool)
  : option bool :=
  match cs with
  | [] => dflt
  | c :: cs' =>
      last_query_scan_forward cs'
        (match c with query_with_scan_forward f => Some f | _ => dflt end)
  end.

(** The arguments of the last calls of [with_limit] and of [with_segment]
    in a sequence of scan builder calls. *)
Fixpoint last_scan_limit (cs : list ScanBuilderCall) (dflt : option Z) : option Z :=
  match cs with
  | [] => dflt
  | c :: cs' =>
      last_scan_limit cs' (match c with scan_with_limit l => Some l | _ => dflt end)
  end.

Fixpoint last_scan_segment (cs : list ScanBuilderCall) (dflt : option (Z * Z))
  : option (Z * Z) :=
  match cs with
  | [] => dflt
  | c :: cs' =>
      last_scan_segment cs'
        (match c with scan_with_segment s n => Some (s, n) | _ => dflt end)
  end.

(** ** Vocabulary of the properties *)

(** A mutator is idempotent-overwrite: after two calls the builder is as
    after the second call alone. *)
Definition overwrites {S A} (mutator : A → S → S) : Prop :=
  ∀ (first second : A) (self : S), mutator second (mutator first self) = mutator second self.

(** The last value wins and is stored: after two calls of a mutator the
    builder is as after the second call alone, and the field read by [get]
    holds what the second call was given. *)
Definition last_value_wins {S A B} (mutator : A → S → S) (get : S → B) (stored : A → B)
  : Prop :=
  ∀ (first second : A) (self : S),
    mutator second (mutator first self) = mutator second self
    ∧ get (mutator second (mutator first self)) = stored second.

(** The two fields of the segment descriptor are unset together or set
    together. *)
Definition segment_paired (segment total_segments : option Z) : Prop :=
  (segment = None ∧ total_segments = None)
  ∨ (∃ s n, segment = Some s ∧ total_segments = Some n).

(** A query builder accepts an interval silently: the mutator stores it and
    [build] returns a request that carries it. *)
Definition between_accepted (lower upper : bytes) (self : QueryRequestBuilder.t) : Prop :=
  ∃ r, outcome (QueryRequestBuilder.build
                  (QueryRequestBuilder.with_sort_key_between lower upper self)) = Return r
       ∧ QueryRequest.sort_key_condition r = Some (between lower upper).

(** Chunks without an error. *)
Definition no_error (response : pb.ScanResponse.t) : Prop :=
  pb.ScanResponse.error response = "".

(** Sample data: two items, three chunks, a client on an open channel. *)
Definition item_alice : pb.Item := pb.mkItem {[ "name" := pb.String "Alice" ]}.
Definition item_bob : pb.Item := pb.mkItem {[ "name" := pb.String "Bob" ]}.
Definition chunk_A : pb.ScanResponse.t := pb.ScanResponse.mk [item_alice] "".
Definition chunk_B : pb.ScanResponse.t := pb.ScanResponse.mk [item_bob; item_alice] "".
Definition chunk_E : pb.ScanResponse.t := pb.ScanResponse.mk [] "E".
Definition sample_client : Client.t GrpcChannel unit := Client.mk (Some ChannelOpen) tt.
Definition sample_scan_request : ScanRequest.t :=
  ScanRequest.mk None ∅ (Some 100) None None None None.

(** A transport failure of the response iterator. *)
Definition sample_rpc_error : PyException :=
  mkException "RpcError" "StatusCode.UNAVAILABLE".

(** A body for a [with] statement: one scan whose stream fails at its second
    chunk. *)
Definition sample_scan_body (c : Client.t GrpcChannel unit)
  : Run (Client.t GrpcChannel unit) (list pb.Item) :=
  (Client.scan c sample_scan_request [chunk_A; chunk_E]).1.

(** * Properties *)

(** ** Scan aggregation *)

Lemma str_truthy_false (s : string) : str_truthy s = false ↔ s = "".
Proof. destruct s; simpl; split; congruence. Qed.

Lemma str_truthy_true (s : string) : str_truthy s = true ↔ s ≠ "".
Proof. destruct s; simpl; split; congruence. Qed.

(** Over chunks without errors the loop only appends, and reads them all. *)
Lemma scan_loop_no_error (stream : list pb.ScanResponse.t) (acc : list pb.Item) :
  Forall no_error stream →
  Client.scan_loop stream acc
  = (Return (acc ++ concat (pb.ScanResponse.items <$> stream)), []).
Proof.
  intros Hok. revert acc.
  induction Hok as [|response rest Hhd _ IH]; intros acc; simpl.
  - by rewrite app_nil_r.
  - apply str_truthy_false in Hhd. rewrite Hhd, IH. by rewrite <- app_assoc.
Qed.

(** The loop stops at the first chunk with an error: what follows that chunk
    stays on the iterator and the accumulated items are dropped. *)
Lemma scan_loop_first_error (pre post : list pb.ScanResponse.t)
    (bad : pb.ScanResponse.t) (acc : list pb.Item) :
  Forall no_error pre →
  pb.ScanResponse.error bad ≠ "" →
  Client.scan_loop (pre ++ bad :: post) acc
  = (Raise (Exception ("Scan error: " +:+ pb.ScanResponse.error bad)), post).
Proof.
  intros Hok Hbad. revert acc.
  induction Hok as [|response rest Hhd _ IH]; intros acc; simpl.
  - apply str_truthy_true in Hbad. by rewrite Hbad.
  - apply str_truthy_false in Hhd. by rewrite Hhd, IH.
Qed.

(** C1, as the code has it: when some chunk of the Scan stream carries a
    non-empty error (the first such chunk, after chunks [pre] without one),
    [Client.scan] raises the built-in [Exception] whose message is
    ["Scan error: "] followed by that chunk's error text; the chunks after it
    ([post]) are left unread on the iterator; and the outcome is the raised
    exception, so none of the items of [pre] reach the caller. The call
    leaves the client as it was and issued the one Scan call. *)
Theorem C1_scan_raises_on_first_error {Channel Stub : Type}
    (self : Client.t Channel Stub) (request : ScanRequest.t)
    (pre post : list pb.ScanResponse.t) (bad : pb.ScanResponse.t) :
  Forall no_error pre →
  pb.ScanResponse.error bad ≠ "" →
  Client.scan self request (pre ++ bad :: post)
  = (mkRun (Raise (Exception ("Scan error: " +:+ pb.ScanResponse.error bad)))
       self [RpcScan request],
     post).
Proof.
  intros Hok Hbad. unfold Client.scan.
  by rewrite (scan_loop_first_error pre post bad [] Hok Hbad).
Qed.

Lemma C1_scan_raises_on_first_error_witness :
  Client.scan sample_client sample_scan_request ([chunk_A; chunk_B] ++ chunk_E :: [chunk_A])
  = (mkRun (Raise (Exception "Scan error: E")) sample_client [RpcScan sample_scan_request],
     [chunk_A]).
Proof.
  apply (C1_scan_raises_on_first_error sample_client sample_scan_request
           [chunk_A; chunk_B] [chunk_A] chunk_E).
  - repeat constructor.
  - discriminate.
Defined.

(** The exception raised for chunks [itemsA], [itemsB], [error="E"] is not
    of a class called StreamError: its class is the built-in [Exception]
    and its message is ["Scan error: E"]. *)
Lemma C1_scan_error_class_counterexample :
  let o := outcome (Client.scan sample_client sample_scan_request
                      [chunk_A; chunk_B; chunk_E]).1 in
  o = Raise (mkException "Exception" "Scan error: E")
  ∧ ¬ raises_class "StreamError" o.
Proof.
  simpl. split; [reflexivity|].
  intros (e & He & Hcls). injection He as <-. discriminate Hcls.
Qed.

(** C2: when no chunk of the Scan stream carries an error, [Client.scan]
    reads the stream to its end and returns the concatenation of the chunks'
    item sequences in arrival order. *)
Theorem C2_scan_returns_concatenation {Channel Stub : Type}
    (self : Client.t Channel Stub) (request : ScanRequest.t)
    (stream : list pb.ScanResponse.t) :
  Forall no_error stream →
  Client.scan self request stream
  = (mkRun (Return (concat (pb.ScanResponse.items <$> stream))) self [RpcScan request],
     []).
Proof.
  intros Hok. unfold Client.scan.
  by rewrite (scan_loop_no_error stream [] Hok).
Qed.

Lemma C2_scan_returns_concatenation_witness :
  Client.scan sample_client sample_scan_request [chunk_A; chunk_B]
  = (mkRun (Return ([item_alice] ++ [item_bob; item_alice])) sample_client
       [RpcScan sample_scan_request],
     []).
Proof.
  apply (C2_scan_returns_concatenation sample_client sample_scan_request
           [chunk_A; chunk_B]).
  repeat constructor.
Defined.

(** ** Builders: what [build] checks *)

(** [build] of the put builder always returns, and the request carries the
    partition key of the builder. *)
Lemma put_build_returns (self : PutRequestBuilder.t) :
  ∃ r, outcome (PutRequestBuilder.build self) = Return r
       ∧ pb.PutRequest.partition_key r = PutRequestBuilder.partition_key self.
Proof.
  unfold PutRequestBuilder.build. eexists. split; [reflexivity|].
  destruct (PutRequestBuilder.sort_key self), (PutRequestBuilder.condition self),
    (dict_truthy (PutRequestBuilder.expression_values self)); reflexivity.
Qed.

Lemma get_build_returns (self : GetRequestBuilder.t) :
  ∃ r, outcome (GetRequestBuilder.build self) = Return r
       ∧ pb.GetRequest.partition_key r = GetRequestBuilder.partition_key self.
Proof.
  unfold GetRequestBuilder.build. eexists. split; [reflexivity|].
  destruct (GetRequestBuilder.sort_key self); reflexivity.
Qed.

(** An outcome that returns does not raise. *)
Lemma return_not_raises {A} (o : Outcome A) (cls : string) (a : A) :
  o = Return a → ¬ raises_class cls o.
Proof. intros -> (e & He & _). discriminate He. Qed.

(** C3, as the code has it: [build] performs no validation of the partition
    key. For every put, get and query builder, an empty partition key
    included, [build] returns a request, and the request carries the
    builder's partition key unchanged (an empty key stays empty). *)
Theorem C3_build_accepts_any_partition_key :
  (∀ self : PutRequestBuilder.t,
     ∃ r, outcome (PutRequestBuilder.build self) = Return r
          ∧ pb.PutRequest.partition_key r = PutRequestBuilder.partition_key self)
  ∧ (∀ self : GetRequestBuilder.t,
       ∃ r, outcome (GetRequestBuilder.build self) = Return r
            ∧ pb.GetRequest.partition_key r = GetRequestBuilder.partition_key self)
  ∧ (∀ self : QueryRequestBuilder.t,
       ∃ r, outcome (QueryRequestBuilder.build self) = Return r
            ∧ QueryRequest.partition_key r = QueryRequestBuilder.partition_key self).
Proof.
  split; [exact put_build_returns|]. split; [exact get_build_returns|].
  intros self. eexists. split; reflexivity.
Qed.

(** With the empty partition key [b""], [build] of the put builder and of
    the get builder return a request with an empty key instead of raising a
    ValidationError (or anything else). *)
Lemma C3_empty_partition_key_counterexample :
  outcome (PutRequestBuilder.build (PutRequestBuilder.__init__ []))
  = Return (pb.PutRequest.mk [] None (pb.mkItem ∅) None ∅)
  ∧ ¬ raises_class "ValidationError"
        (outcome (PutRequestBuilder.build (PutRequestBuilder.__init__ [])))
  ∧ outcome (GetRequestBuilder.build (GetRequestBuilder.__init__ []))
    = Return (pb.GetRequest.mk [] None)
  ∧ ¬ raises_class "ValidationError"
        (outcome (GetRequestBuilder.build (GetRequestBuilder.__init__ []))).
Proof.
  assert (Hput : outcome (PutRequestBuilder.build (PutRequestBuilder.__init__ []))
                 = Return (pb.PutRequest.mk [] None (pb.mkItem ∅) None ∅)).
  { unfold PutRequestBuilder.build, PutRequestBuilder.__init__. simpl.
    by rewrite fmap_empty. }
  assert (Hget : outcome (GetRequestBuilder.build (GetRequestBuilder.__init__ []))
                 = Return (pb.GetRequest.mk [] None)) by reflexivity.
  split; [exact Hput|]. split; [exact (return_not_raises _ _ _ Hput)|].
  split; [exact Hget|]. exact (return_not_raises _ _ _ Hget).
Qed.

(** C4, as the code has it: [with_segment] stores any pair of integers and
    [build] performs no validation of it. For every builder and every
    [segment] and [total_segments], [build] after [with_segment] returns a
    request carrying both numbers unchanged; so [segment=0, total_segments=4]
    builds, and so does [segment=4, total_segments=4]. *)
Theorem C4_build_accepts_any_segment :
  (∀ (self : ScanRequestBuilder.t) (segment total_segments : Z),
     ∃ r, outcome (ScanRequestBuilder.build
                     (ScanRequestBuilder.with_segment segment total_segments self))
          = Return r
          ∧ ScanRequest.segment r = Some segment
          ∧ ScanRequest.total_segments r = Some total_segments)
  ∧ outcome (ScanRequestBuilder.build
               (ScanRequestBuilder.with_segment 0 4 ScanRequestBuilder.__init__))
    = Return (ScanRequest.mk None ∅ None None None (Some 0) (Some 4)).
Proof.
  split; [|reflexivity].
  intros self s n. eexists. split; [reflexivity|]. split; reflexivity.
Qed.

(** With [segment=4, total_segments=4] (so [segment >= total_segments]), and
    with [segment=0, total_segments=0] (so [total_segments <= 0]), [build]
    returns a request instead of raising a ValidationError. *)
Lemma C4_segment_bounds_counterexample :
  4 >= 4
  ∧ outcome (ScanRequestBuilder.build
               (ScanRequestBuilder.with_segment 4 4 ScanRequestBuilder.__init__))
    = Return (ScanRequest.mk None ∅ None None None (Some 4) (Some 4))
  ∧ ¬ raises_class "ValidationError"
        (outcome (ScanRequestBuilder.build
                    (ScanRequestBuilder.with_segment 4 4 ScanRequestBuilder.__init__)))
  ∧ 0 <= 0
  ∧ ¬ raises_class "ValidationError"
        (outcome (ScanRequestBuilder.build
                    (ScanRequestBuilder.with_segment 0 0 ScanRequestBuilder.__init__))).
Proof.
  split; [lia|]. split; [reflexivity|].
  split; [exact (return_not_raises _ _ _ eq_refl)|].
  split; [lia|]. exact (return_not_raises _ _ _ eq_refl).
Qed.

(** C5, as the code has it: the query builder has one policy for a Between
    condition, which is to accept it whatever the order of its bounds.
    [with_sort_key_between lower upper] stores the pair and [build] returns a
    request whose sort-key condition is [between lower upper], also when
    [lower > upper]. *)
Theorem C5_between_accepted_in_any_order
    (self : QueryRequestBuilder.t) (lower upper : bytes) :
  between_accepted lower upper self.
Proof. unfold between_accepted. eexists. split; reflexivity. Qed.

(** With [lower = b"z"] and [upper = b"a"] the range is inverted, and it is
    accepted silently: neither the mutator nor [build] rejects it. *)
Lemma C5_inverted_between_counterexample :
  bytes_gt [x7a] [x61]
  ∧ between_accepted [x7a] [x61] (QueryRequestBuilder.__init__ [x6f; x72; x67])
  ∧ ¬ raises_class "ValidationError"
        (outcome (QueryRequestBuilder.build
                    (QueryRequestBuilder.with_sort_key_between [x7a] [x61]
                       (QueryRequestBuilder.__init__ [x6f; x72; x67])))).
Proof.
  split; [reflexivity|]. split.
  - eexists. split; reflexivity.
  - exact (return_not_raises _ _ _ eq_refl).
Qed.

(** ** Builders: number text *)

(** Building converts every stored attribute with [pb.mkValue]. *)
Lemma put_build_attribute (self : PutRequestBuilder.t) (name : string) :
  ∃ r, outcome (PutRequestBuilder.build self) = Return r
       ∧ pb.attributes (pb.PutRequest.item r) !! name
         = pb.mkValue <$> (PutRequestBuilder.attributes self !! name).
Proof.
  unfold PutRequestBuilder.build. eexists. split; [reflexivity|].
  destruct (PutRequestBuilder.sort_key self), (PutRequestBuilder.condition self),
    (dict_truthy (PutRequestBuilder.expression_values self)); simpl;
    apply lookup_fmap.
Qed.

(** C6: a number attached with [with_number] is stored as the text it was
    given, [build] puts that same text in the request's [Number] value, and
    reading the value back gives the keyword dictionary that was stored: for
    every stored attribute, converting to the [Value] variant and back is the
    identity, so ["30"] stays ["30"]. *)
Theorem C6_number_text_round_trip :
  (∀ (self : PutRequestBuilder.t) (name text : string),
     PutRequestBuilder.attributes (PutRequestBuilder.with_number name text self) !! name
     = Some (number_value text)
     ∧ ∃ r, outcome (PutRequestBuilder.build
                       (PutRequestBuilder.with_number name text self)) = Return r
            ∧ pb.attributes (pb.PutRequest.item r) !! name = Some (pb.Number text)
            ∧ pb.fields <$> (pb.attributes (pb.PutRequest.item r) !! name)
              = Some (number_value text))
  ∧ (∀ val : Kwargs, pb.fields (pb.mkValue val) = val)
  ∧ (∀ v : pb.Value, pb.mkValue (pb.fields v) = v)
  ∧ pb.fields (pb.mkValue (number_value "30")) = number_value "30".
Proof.
  split; [|split; [|split]].
  - intros self name text.
    assert (Hstored : PutRequestBuilder.attributes
                        (PutRequestBuilder.with_number name text self) !! name
                      = Some (number_value text)) by apply lookup_insert_eq.
    split; [exact Hstored|].
    destruct (put_build_attribute (PutRequestBuilder.with_number name text self) name)
      as (r & Hr & Hattr).
    exists r. rewrite Hattr, Hstored. split; [exact Hr|]. split; reflexivity.
  - intros []; reflexivity.
  - intros []; reflexivity.
  - reflexivity.
Qed.

(** ** Builders: overwriting mutators *)

Lemma set_attribute_overwrites (name : string) :
  overwrites (PutRequestBuilder.set_attribute name).
Proof.
  intros v1 v2 self. unfold PutRequestBuilder.set_attribute. simpl.
  by rewrite insert_insert_eq.
Qed.

(** The three sort-key mutators write the same field. *)
Lemma sort_key_mutator_sets (k : SortKeyCondition) (self : QueryRequestBuilder.t) :
  sort_key_mutator k self = QueryRequestBuilder.set_sort_key_condition k self.
Proof. destruct k; reflexivity. Qed.

Lemma sort_key_mutator_overwrites : overwrites sort_key_mutator.
Proof. intros k1 k2 self. by rewrite !sort_key_mutator_sets. Qed.

(** A sort-key mutator call sets the condition it names. *)
Lemma sort_key_call_sets (c : QueryBuilderCall) (k : SortKeyCondition)
    (self : QueryRequestBuilder.t) :
  sort_key_call c = Some k →
  query_builder_call c self = QueryRequestBuilder.set_sort_key_condition k self.
Proof. destruct c; simpl; intros [= <-]; reflexivity. Qed.

(** Any other call leaves the condition alone. *)
Lemma other_call_keeps_condition (c : QueryBuilderCall) (self : QueryRequestBuilder.t) :
  sort_key_call c = None →
  QueryRequestBuilder.sort_key_condition (query_builder_call c self)
  = QueryRequestBuilder.sort_key_condition self.
Proof. destruct c; simpl; intros [=]; reflexivity. Qed.

(** After a sequence of calls the condition is that of the last sort-key
    mutator, or the one the builder had when no such call was made. *)
Lemma query_calls_condition (cs : list QueryBuilderCall) (self : QueryRequestBuilder.t) :
  QueryRequestBuilder.sort_key_condition (query_builder_calls cs self)
  = last_sort_key_call cs (QueryRequestBuilder.sort_key_condition self).
Proof.
  revert self. induction cs as [|c cs IH]; intros self; [reflexivity|].
  unfold query_builder_calls in *. simpl. rewrite IH. f_equal.
  destruct (sort_key_call c) as [k|] eqn:Hc.
  - by rewrite (sort_key_call_sets c k self Hc).
  - by apply other_call_keeps_condition.
Qed.

(** A field mutator of the put and get builders stores the last value. *)
Lemma put_get_fields_last_value_wins :
  last_value_wins PutRequestBuilder.with_sort_key PutRequestBuilder.sort_key Some
  ∧ last_value_wins PutRequestBuilder.with_condition PutRequestBuilder.condition Some
  ∧ last_value_wins GetRequestBuilder.with_sort_key GetRequestBuilder.sort_key Some.
Proof. split; [by intros v1 v2 self|]. split; by intros v1 v2 self. Qed.

(** An attribute mutator stores the last value given for its name. *)
Lemma set_attribute_last_value_wins (name : string) :
  last_value_wins (PutRequestBuilder.set_attribute name)
    (λ self, PutRequestBuilder.attributes self !! name) Some.
Proof.
  intros v1 v2 self. split; [apply set_attribute_overwrites|].
  rewrite set_attribute_overwrites. unfold PutRequestBuilder.set_attribute. simpl.
  apply lookup_insert_eq.
Qed.

Lemma attribute_mutators_last_value_wins (name : string) :
  last_value_wins (PutRequestBuilder.with_string name)
    (λ self, PutRequestBuilder.attributes self !! name) (λ v, Some (string_value v))
  ∧ last_value_wins (PutRequestBuilder.with_number name)
      (λ self, PutRequestBuilder.attributes self !! name) (λ v, Some (number_value v))
  ∧ last_value_wins (PutRequestBuilder.with_bool name)
      (λ self, PutRequestBuilder.attributes self !! name) (λ v, Some (bool_value v))
  ∧ last_value_wins (PutRequestBuilder.with_binary name)
      (λ self, PutRequestBuilder.attributes self !! name) (λ v, Some (binary_value v)).
Proof.
  split; [|split; [|split]]; intros v1 v2 self;
    apply (set_attribute_last_value_wins name).
Qed.

(** An attribute mutator leaves every field but [attributes] as it was, and
    in [attributes] every other name. *)
Lemma set_attribute_lookup (name name' : string) (val : Kwargs)
    (self : PutRequestBuilder.t) :
  PutRequestBuilder.attributes (PutRequestBuilder.set_attribute name val self) !! name'
  = if decide (name = name') then Some val
    else PutRequestBuilder.attributes self !! name'.
Proof. unfold PutRequestBuilder.set_attribute. simpl. apply lookup_insert. Qed.

(** Two attribute calls, for any two names: every name reads the value of
    the last call made for it, so a call for another name is kept. *)
Lemma set_attribute_twice_lookup (name1 name2 name : string) (val1 val2 : Kwargs)
    (self : PutRequestBuilder.t) :
  PutRequestBuilder.attributes
    (PutRequestBuilder.set_attribute name2 val2
       (PutRequestBuilder.set_attribute name1 val1 self)) !! name
  = if decide (name2 = name) then Some val2
    else if decide (name1 = name) then Some val1
    else PutRequestBuilder.attributes self !! name.
Proof. by rewrite !set_attribute_lookup. Qed.

Lemma query_fields_last_value_wins :
  last_value_wins QueryRequestBuilder.with_sort_key_equal
    QueryRequestBuilder.sort_key_condition (λ v, Some (equal_to v))
  ∧ last_value_wins QueryRequestBuilder.with_sort_key_begins_with
      QueryRequestBuilder.sort_key_condition (λ v, Some (begins_with v))
  ∧ last_value_wins (uncurry QueryRequestBuilder.with_sort_key_between)
      QueryRequestBuilder.sort_key_condition (λ p, Some (between p.1 p.2))
  ∧ last_value_wins QueryRequestBuilder.with_limit QueryRequestBuilder.limit Some
  ∧ last_value_wins QueryRequestBuilder.with_index QueryRequestBuilder.index_name Some
  ∧ last_value_wins QueryRequestBuilder.with_scan_forward
      QueryRequestBuilder.scan_forward Some.
Proof.
  split; [by intros v1 v2 self|]. split; [by intros v1 v2 self|].
  split; [by intros [l1 u1] [l2 u2] self|].
  split; [by intros v1 v2 self|]. split; by intros v1 v2 self.
Qed.

Lemma scan_fields_last_value_wins :
  last_value_wins ScanRequestBuilder.with_limit ScanRequestBuilder.limit Some
  ∧ last_value_wins (uncurry ScanRequestBuilder.with_segment)
      (λ self, (ScanRequestBuilder.segment self, ScanRequestBuilder.total_segments self))
      (λ p, (Some p.1, Some p.2)).
Proof. split; [by intros v1 v2 self | by intros [s1 n1] [s2 n2] self]. Qed.

Lemma sort_key_mutator_last_value_wins :
  last_value_wins sort_key_mutator QueryRequestBuilder.sort_key_condition Some.
Proof.
  intros k1 k2 self. split; [apply sort_key_mutator_overwrites|].
  by rewrite !sort_key_mutator_sets.
Qed.

(** C7, as the code has it. Every mutator that assigns a field (the sort key
    and the condition of the put builder, the sort key of the get builder,
    the sort-key condition, limit, index name and scan direction of the query
    builder, the limit and the segment pair of the scan builder) is
    idempotent-overwrite: called twice, it leaves the builder as the second
    call alone does, and the field holds the second value. The attribute
    mutators of the put builder write the entry of the attribute name they
    are given: two calls for the same name, of the same mutator or of two
    different ones, keep the last value only, and two calls for different
    names keep both values. The three sort-key mutators of the query builder
    write one field: whichever two are called, the second condition is the
    one stored, and after any sequence of calls the built request carries the
    condition of the last sort-key mutator called (none when none was). *)
Theorem C7_mutators_last_value_wins :
  (last_value_wins PutRequestBuilder.with_sort_key PutRequestBuilder.sort_key Some
   ∧ last_value_wins PutRequestBuilder.with_condition PutRequestBuilder.condition Some
   ∧ last_value_wins GetRequestBuilder.with_sort_key GetRequestBuilder.sort_key Some)
  ∧ (∀ name,
       last_value_wins (PutRequestBuilder.with_string name)
         (λ self, PutRequestBuilder.attributes self !! name) (λ v, Some (string_value v))
       ∧ last_value_wins (PutRequestBuilder.with_number name)
           (λ self, PutRequestBuilder.attributes self !! name) (λ v, Some (number_value v))
       ∧ last_value_wins (PutRequestBuilder.with_bool name)
           (λ self, PutRequestBuilder.attributes self !! name) (λ v, Some (bool_value v))
       ∧ last_value_wins (PutRequestBuilder.with_binary name)
           (λ self, PutRequestBuilder.attributes self !! name)
           (λ v, Some (binary_value v)))
  ∧ (∀ name,
       last_value_wins (PutRequestBuilder.set_attribute name)
         (λ self, PutRequestBuilder.attributes self !! name) Some)
  ∧ (∀ (name1 name2 name : string) (val1 val2 : Kwargs) (self : PutRequestBuilder.t),
       PutRequestBuilder.attributes
         (PutRequestBuilder.set_attribute name2 val2
            (PutRequestBuilder.set_attribute name1 val1 self)) !! name
       = if decide (name2 = name) then Some val2
         else if decide (name1 = name) then Some val1
         else PutRequestBuilder.attributes self !! name)
  ∧ (last_value_wins QueryRequestBuilder.with_sort_key_equal
       QueryRequestBuilder.sort_key_condition (λ v, Some (equal_to v))
     ∧ last_value_wins QueryRequestBuilder.with_sort_key_begins_with
         QueryRequestBuilder.sort_key_condition (λ v, Some (begins_with v))
     ∧ last_value_wins (uncurry QueryRequestBuilder.with_sort_key_between)
         QueryRequestBuilder.sort_key_condition (λ p, Some (between p.1 p.2))
     ∧ last_value_wins QueryRequestBuilder.with_limit QueryRequestBuilder.limit Some
     ∧ last_value_wins QueryRequestBuilder.with_index QueryRequestBuilder.index_name Some
     ∧ last_value_wins QueryRequestBuilder.with_scan_forward
         QueryRequestBuilder.scan_forward Some)
  ∧ (last_value_wins ScanRequestBuilder.with_limit ScanRequestBuilder.limit Some
     ∧ last_value_wins (uncurry ScanRequestBuilder.with_segment)
         (λ self, (ScanRequestBuilder.segment self, ScanRequestBuilder.total_segments self))
         (λ p, (Some p.1, Some p.2)))
  ∧ last_value_wins sort_key_mutator QueryRequestBuilder.sort_key_condition Some
  ∧ (∀ (partition_key : bytes) (cs : list QueryBuilderCall),
       ∃ r, outcome (QueryRequestBuilder.build
                       (query_builder_calls cs (QueryRequestBuilder.__init__ partition_key)))
            = Return r
            ∧ QueryRequest.sort_key_condition r = last_sort_key_call cs None).
Proof.
  split; [exact put_get_fields_last_value_wins|].
  split; [exact attribute_mutators_last_value_wins|].
  split; [exact set_attribute_last_value_wins|].
  split; [exact set_attribute_twice_lookup|].
  split; [exact query_fields_last_value_wins|].
  split; [exact scan_fields_last_value_wins|].
  split; [exact sort_key_mutator_last_value_wins|].
  intros pk cs. eexists. split; [reflexivity|]. simpl.
  apply (query_calls_condition cs (QueryRequestBuilder.__init__ pk)).
Qed.

(** [with_string] called twice with different arguments, here for two
    different attribute names, does not leave the builder in the state of the
    second call alone: the attribute of the first call is still there. *)
Lemma C7_two_attribute_names_counterexample :
  PutRequestBuilder.with_string "email" "alice@example.com"
    (PutRequestBuilder.with_string "name" "Alice" (PutRequestBuilder.__init__ [x75]))
  ≠ PutRequestBuilder.with_string "email" "alice@example.com"
      (PutRequestBuilder.__init__ [x75])
  ∧ PutRequestBuilder.attributes
      (PutRequestBuilder.with_string "email" "alice@example.com"
         (PutRequestBuilder.with_string "name" "Alice" (PutRequestBuilder.__init__ [x75])))
    !! "name" = Some (string_value "Alice")
  ∧ PutRequestBuilder.attributes
      (PutRequestBuilder.with_string "email" "alice@example.com"
         (PutRequestBuilder.__init__ [x75]))
    !! "name" = None.
Proof.
  assert (Hboth : PutRequestBuilder.attributes
                    (PutRequestBuilder.with_string "email" "alice@example.com"
                       (PutRequestBuilder.with_string "name" "Alice"
                          (PutRequestBuilder.__init__ [x75])))
                  !! "name" = Some (string_value "Alice")).
  { unfold PutRequestBuilder.with_string. rewrite set_attribute_twice_lookup.
    rewrite decide_False by discriminate. by rewrite decide_True. }
  assert (Halone : PutRequestBuilder.attributes
                     (PutRequestBuilder.with_string "email" "alice@example.com"
                        (PutRequestBuilder.__init__ [x75]))
                   !! "name" = None).
  { unfold PutRequestBuilder.with_string. rewrite set_attribute_lookup.
    rewrite decide_False by discriminate. apply lookup_empty. }
  split; [|split; [exact Hboth | exact Halone]].
  intros Heq. rewrite Heq, Halone in Hboth. discriminate Hboth.
Qed.

(** ** Builders: [build] and the builder *)

(** A run that leaves [self] as it was, issues no remote call, and gives the
    same outcome when the method is called again on the object it left. *)
Lemma put_build_pure (self : PutRequestBuilder.t) :
  self_after (PutRequestBuilder.build self) = self
  ∧ rpc_calls (PutRequestBuilder.build self) = []
  ∧ outcome (PutRequestBuilder.build (self_after (PutRequestBuilder.build self)))
    = outcome (PutRequestBuilder.build self).
Proof. split; [reflexivity|]. split; reflexivity. Qed.

Lemma get_build_pure (self : GetRequestBuilder.t) :
  self_after (GetRequestBuilder.build self) = self
  ∧ rpc_calls (GetRequestBuilder.build self) = []
  ∧ outcome (GetRequestBuilder.build (self_after (GetRequestBuilder.build self)))
    = outcome (GetRequestBuilder.build self).
Proof. split; [reflexivity|]. split; reflexivity. Qed.

Lemma query_build_pure (self : QueryRequestBuilder.t) :
  self_after (QueryRequestBuilder.build self) = self
  ∧ rpc_calls (QueryRequestBuilder.build self) = []
  ∧ outcome (QueryRequestBuilder.build (self_after (QueryRequestBuilder.build self)))
    = outcome (QueryRequestBuilder.build self).
Proof. split; [reflexivity|]. split; reflexivity. Qed.

Lemma scan_build_pure (self : ScanRequestBuilder.t) :
  self_after (ScanRequestBuilder.build self) = self
  ∧ rpc_calls (ScanRequestBuilder.build self) = []
  ∧ outcome (ScanRequestBuilder.build (self_after (ScanRequestBuilder.build self)))
    = outcome (ScanRequestBuilder.build self).
Proof. split; [reflexivity|]. split; reflexivity. Qed.

(** C8: for each of the four builders and every state of it, [build] issues
    no remote call, leaves every field of the builder as it was, and a second
    [build] on the builder the first one left returns an equal request. *)
Theorem C8_build_is_pure :
  (∀ self : PutRequestBuilder.t,
     self_after (PutRequestBuilder.build self) = self
     ∧ rpc_calls (PutRequestBuilder.build self) = []
     ∧ outcome (PutRequestBuilder.build (self_after (PutRequestBuilder.build self)))
       = outcome (PutRequestBuilder.build self))
  ∧ (∀ self : GetRequestBuilder.t,
       self_after (GetRequestBuilder.build self) = self
       ∧ rpc_calls (GetRequestBuilder.build self) = []
       ∧ outcome (GetRequestBuilder.build (self_after (GetRequestBuilder.build self)))
         = outcome (GetRequestBuilder.build self))
  ∧ (∀ self : QueryRequestBuilder.t,
       self_after (QueryRequestBuilder.build self) = self
       ∧ rpc_calls (QueryRequestBuilder.build self) = []
       ∧ outcome (QueryRequestBuilder.build (self_after (QueryRequestBuilder.build self)))
         = outcome (QueryRequestBuilder.build self))
  ∧ (∀ self : ScanRequestBuilder.t,
       self_after (ScanRequestBuilder.build self) = self
       ∧ rpc_calls (ScanRequestBuilder.build self) = []
       ∧ outcome (ScanRequestBuilder.build (self_after (ScanRequestBuilder.build self)))
         = outcome (ScanRequestBuilder.build self)).
Proof.
  split; [exact put_build_pure|]. split; [exact get_build_pure|].
  split; [exact query_build_pure | exact scan_build_pure].
Qed.

(** ** Scan builder: the segment descriptor *)

(** Every call keeps the two segment fields paired. *)
Lemma scan_builder_call_paired (c : ScanBuilderCall) (self : ScanRequestBuilder.t) :
  segment_paired (ScanRequestBuilder.segment self) (ScanRequestBuilder.total_segments self) →
  segment_paired (ScanRequestBuilder.segment (scan_builder_call c self))
    (ScanRequestBuilder.total_segments (scan_builder_call c self)).
Proof.
  intros Hinv. destruct c as [l|s n|]; simpl; [exact Hinv| |exact Hinv].
  right. by exists s, n.
Qed.

Lemma scan_builder_calls_paired (cs : list ScanBuilderCall) (self : ScanRequestBuilder.t) :
  segment_paired (ScanRequestBuilder.segment self) (ScanRequestBuilder.total_segments self) →
  segment_paired (ScanRequestBuilder.segment (scan_builder_calls cs self))
    (ScanRequestBuilder.total_segments (scan_builder_calls cs self)).
Proof.
  revert self. induction cs as [|c cs IH]; intros self Hinv; [exact Hinv|].
  unfold scan_builder_calls in *. simpl. apply IH.
  by apply scan_builder_call_paired.
Qed.

(** C10: after any sequence of calls on a fresh [ScanRequestBuilder], the
    fields [segment] and [total_segments] are both unset or both set, and
    the request [build] then returns carries the same two fields, so it never
    has a segment number without a total or a total without a segment
    number. *)
Theorem C10_segment_fields_paired (cs : list ScanBuilderCall) :
  let self := scan_builder_calls cs ScanRequestBuilder.__init__ in
  segment_paired (ScanRequestBuilder.segment self) (ScanRequestBuilder.total_segments self)
  ∧ ∃ r, outcome (ScanRequestBuilder.build self) = Return r
         ∧ ScanRequest.segment r = ScanRequestBuilder.segment self
         ∧ ScanRequest.total_segments r = ScanRequestBuilder.total_segments self
         ∧ segment_paired (ScanRequest.segment r) (ScanRequest.total_segments r).
Proof.
  intros self.
  assert (Hinv : segment_paired (ScanRequestBuilder.segment self)
                   (ScanRequestBuilder.total_segments self)).
  { apply scan_builder_calls_paired. left. split; reflexivity. }
  split; [exact Hinv|].
  eexists. split; [reflexivity|]. split; [reflexivity|]. split; [reflexivity|].
  exact Hinv.
Qed.

(** ** Client: [close] *)

Section Close.

Context {Channel Stub : Type}.
Variable channel_close : Channel → Outcome unit * Channel.

(** The documented behaviour of the channel's [close]: it does not raise,
  and on a channel that was closed it changes nothing. *)
Hypothesis channel_close_returns : ∀ ch, (channel_close ch).1 = Return tt.
Hypothesis channel_close_idempotent :
∀ ch, (channel_close (channel_close ch).2).2 = (channel_close ch).2.

Lemma close_returns (self : Client.t Channel Stub) :
outcome (Client.close channel_close self) = Return tt
∧ rpc_calls (Client.close channel_close self) = [].
Proof.
unfold Client.close. destruct (Client._channel self) as [ch|]; [|done].
pose proof (channel_close_returns ch) as Hret.
destruct (channel_close ch) as [o ch']. simpl in *. by subst.
Qed.

Lemma close_close (self : Client.t Channel Stub) :
self_after (Client.close channel_close (self_after (Client.close channel_close self)))
= self_after (Client.close channel_close self).
Proof.
unfold Client.close. destruct (Client._channel self) as [ch|] eqn:Hch.
- pose proof (channel_close_idempotent ch) as Hidem.
  destruct (channel_close ch) as [o ch']. simpl in *.
  destruct (channel_close ch') as [o' ch'']. simpl in *. by subst.
- simpl. by rewrite Hch.
Qed.

Lemma close_times_closed (n : nat) (self : Client.t Channel Stub) :
Client.close_times channel_close (S n) self
= (replicate (S n) (Return tt), self_after (Client.close channel_close self)).
Proof.
revert self. induction n as [|n IH]; intros self.
- simpl. by rewrite (proj1 (close_returns self)).
- change (Client.close_times channel_close (S (S n)) self)
    with (let r := Client.close channel_close self in
          let (os, self') := Client.close_times channel_close (S n) (self_after r) in
          (outcome r :: os, self')).
  cbv zeta. rewrite IH, close_close, (proj1 (close_returns self)). reflexivity.
Qed.

End Close.







(** * Further properties of the builders *)

(** ** Put builder: the request that is built *)

Lemma dict_truthy_false {V} (d : gmap string V) : dict_truthy d = false → d = ∅.
Proof.
  unfold dict_truthy. intros Hd. apply map_size_empty_iff.
  destruct (size d); [reflexivity | discriminate Hd].
Qed.

(** The copy loop over the bindings gives the bindings converted entry by
    entry. *)
Lemma copy_expression_values_fmap (d : gmap string Kwargs) :
  map_fold (λ k v acc, <[k := pb.mkValue v]> acc) (∅ : gmap string pb.Value) d
  = pb.mkValue <$> d.
Proof.
  apply (map_fold_weak_ind (λ r m, r = pb.mkValue <$> m)).
  - by rewrite fmap_empty.
  - intros k v m r _ ->. by rewrite fmap_insert.
Qed.

(** The request [PutRequestBuilder.build] returns, in closed form: the three
    guarded assignments amount to copying the key, the sort key and the
    condition, and to converting every attribute and every binding with the
    [Value] constructor; nothing is dropped and nothing is added. *)
Theorem put_build_request (self : PutRequestBuilder.t) :
  PutRequestBuilder.build self
  = mkRun
      (Return (pb.PutRequest.mk
                 (PutRequestBuilder.partition_key self)
                 (PutRequestBuilder.sort_key self)
                 (pb.mkItem (pb.mkValue <$> PutRequestBuilder.attributes self))
                 (PutRequestBuilder.condition self)
                 (pb.mkValue <$> PutRequestBuilder.expression_values self)))
      self [].
Proof.
  unfold PutRequestBuilder.build, returns. f_equal. f_equal.
  destruct (dict_truthy (PutRequestBuilder.expression_values self)) eqn:Hev.
  - destruct (PutRequestBuilder.sort_key self), (PutRequestBuilder.condition self);
      unfold PutRequest_copy_expression_values; simpl;
      by rewrite copy_expression_values_fmap.
  - apply dict_truthy_false in Hev. rewrite Hev, fmap_empty.
    by destruct (PutRequestBuilder.sort_key self), (PutRequestBuilder.condition self).
Qed.

(** ** Put builder: attributes *)

(** Setting an attribute changes, in the request that is then built, the
    value of that attribute only: the key, the sort key, the condition, the
    bindings and every attribute of another name are as they would be
    without the call. *)
Theorem put_attribute_frame (self : PutRequestBuilder.t) (name name' : string)
    (val : Kwargs) :
  name ≠ name' →
  ∃ r r',
    outcome (PutRequestBuilder.build self) = Return r
    ∧ outcome (PutRequestBuilder.build (PutRequestBuilder.set_attribute name val self))
      = Return r'
    ∧ pb.PutRequest.partition_key r' = pb.PutRequest.partition_key r
    ∧ pb.PutRequest.sort_key r' = pb.PutRequest.sort_key r
    ∧ pb.PutRequest.condition_expression r' = pb.PutRequest.condition_expression r
    ∧ pb.PutRequest.expression_values r' = pb.PutRequest.expression_values r
    ∧ pb.attributes (pb.PutRequest.item r') !! name' = pb.attributes (pb.PutRequest.item r) !! name'
    ∧ pb.attributes (pb.PutRequest.item r') !! name = Some (pb.mkValue val).
Proof.
  intros Hne. rewrite !put_build_request. simpl. eexists _, _.
  split; [reflexivity|]. split; [reflexivity|]. simpl.
  split; [reflexivity|]. split; [reflexivity|]. split; [reflexivity|].
  split; [reflexivity|]. rewrite !lookup_fmap.
  split; [by rewrite lookup_insert_ne | by rewrite lookup_insert_eq].
Qed.

Lemma put_attribute_frame_witness :
  ∃ r r',
    outcome (PutRequestBuilder.build (PutRequestBuilder.__init__ [x75])) = Return r
    ∧ outcome (PutRequestBuilder.build
                 (PutRequestBuilder.set_attribute "age" (number_value "30")
                    (PutRequestBuilder.__init__ [x75])))
      = Return r'
    ∧ pb.PutRequest.partition_key r' = pb.PutRequest.partition_key r
    ∧ pb.PutRequest.sort_key r' = pb.PutRequest.sort_key r
    ∧ pb.PutRequest.condition_expression r' = pb.PutRequest.condition_expression r
    ∧ pb.PutRequest.expression_values r' = pb.PutRequest.expression_values r
    ∧ pb.attributes (pb.PutRequest.item r') !! "name" = pb.attributes (pb.PutRequest.item r) !! "name"
    ∧ pb.attributes (pb.PutRequest.item r') !! "age" = Some (pb.mkValue (number_value "30")).
Proof.
  apply (put_attribute_frame (PutRequestBuilder.__init__ [x75]) "age" "name"
           (number_value "30")).
  discriminate.
Defined.

(** Attribute mutators for two different names commute: the order in which
    two attributes are added does not change the builder. *)
Theorem put_attributes_commute (self : PutRequestBuilder.t) (name1 name2 : string)
    (val1 val2 : Kwargs) :
  name1 ≠ name2 →
  PutRequestBuilder.set_attribute name1 val1 (PutRequestBuilder.set_attribute name2 val2 self)
  = PutRequestBuilder.set_attribute name2 val2 (PutRequestBuilder.set_attribute name1 val1 self).
Proof.
  intros Hne. unfold PutRequestBuilder.set_attribute. simpl.
  f_equal. by apply insert_insert_ne.
Qed.

Lemma put_attributes_commute_witness :
  PutRequestBuilder.with_string "name" "Alice"
    (PutRequestBuilder.with_number "age" "30" (PutRequestBuilder.__init__ [x75]))
  = PutRequestBuilder.with_number "age" "30"
      (PutRequestBuilder.with_string "name" "Alice" (PutRequestBuilder.__init__ [x75])).
Proof.
  apply (put_attributes_commute (PutRequestBuilder.__init__ [x75]) "name" "age"
           (string_value "Alice") (number_value "30")).
  discriminate.
Defined.

(** ** Put builder: call sequences *)

(** The fields a call sequence leaves, from the fields it started with. *)
Lemma put_calls_fields (cs : list PutBuilderCall) (self : PutRequestBuilder.t) :
  PutRequestBuilder.partition_key (put_builder_calls cs self)
  = PutRequestBuilder.partition_key self
  ∧ PutRequestBuilder.sort_key (put_builder_calls cs self)
    = last_put_sort_key cs (PutRequestBuilder.sort_key self)
  ∧ PutRequestBuilder.condition (put_builder_calls cs self)
    = last_put_condition cs (PutRequestBuilder.condition self)
  ∧ PutRequestBuilder.expression_values (put_builder_calls cs self)
    = PutRequestBuilder.expression_values self.
Proof.
  revert self. induction cs as [|c cs IH]; intros self; [done|].
  unfold put_builder_calls in *. simpl.
  destruct (IH (put_builder_call c self)) as (Hpk & Hsk & Hcond & Hev).
  rewrite Hpk, Hsk, Hcond, Hev. by destruct c.
Qed.

Lemma put_calls_attribute (cs : list PutBuilderCall) (self : PutRequestBuilder.t)
    (name : string) :
  PutRequestBuilder.attributes (put_builder_calls cs self) !! name
  = last_attribute_call cs name (PutRequestBuilder.attributes self !! name).
Proof.
  revert self. induction cs as [|c cs IH]; intros self; [done|].
  unfold put_builder_calls in *. simpl. rewrite IH. f_equal.
  destruct c; simpl; try reflexivity; apply set_attribute_lookup.
Qed.

(** Whatever calls are chained on [PutRequestBuilder(partition_key)], in
    whatever order and with [build] called in between or not, the request
    built at the end holds, for every attribute name, the value of the last
    attribute mutator called for that name, whatever its kind, and no value
    for a name that no call named. *)
Theorem put_calls_build_attributes (partition_key : bytes) (cs : list PutBuilderCall)
    (name : string) :
  ∃ r, outcome (PutRequestBuilder.build
                  (put_builder_calls cs (PutRequestBuilder.__init__ partition_key)))
       = Return r
       ∧ pb.attributes (pb.PutRequest.item r) !! name
         = pb.mkValue <$> last_attribute_call cs name None.
Proof.
  rewrite put_build_request. eexists. split; [reflexivity|]. simpl.
  rewrite lookup_fmap. f_equal.
  apply (put_calls_attribute cs (PutRequestBuilder.__init__ partition_key) name).
Qed.

(** Whatever calls are chained on [PutRequestBuilder(partition_key)], the
    request built at the end has the partition key given to the constructor,
    the sort key of the last [with_sort_key] call and the condition of the
    last [with_condition] call (each unset when there was no such call), and
    an empty table of expression values: no method of the builder binds a
    placeholder, also when a condition was set. *)
Theorem put_calls_build_key_condition (partition_key : bytes) (cs : list PutBuilderCall) :
  ∃ r, outcome (PutRequestBuilder.build
                  (put_builder_calls cs (PutRequestBuilder.__init__ partition_key)))
       = Return r
       ∧ pb.PutRequest.partition_key r = partition_key
       ∧ pb.PutRequest.sort_key r = last_put_sort_key cs None
       ∧ pb.PutRequest.condition_expression r = last_put_condition cs None
       ∧ pb.PutRequest.expression_values r = ∅.
Proof.
  rewrite put_build_request. eexists. split; [reflexivity|]. simpl.
  destruct (put_calls_fields cs (PutRequestBuilder.__init__ partition_key))
    as (Hpk & Hsk & Hcond & Hev).
  rewrite Hpk, Hsk, Hcond, Hev. simpl. by rewrite fmap_empty.
Qed.

(** ** Put and get builders: the key *)

(** A put builder and a get builder holding the same partition key and the
    same sort key build requests for the same key, whatever attributes and
    condition the put builder carries. *)
Theorem put_get_same_key (p : PutRequestBuilder.t) (g : GetRequestBuilder.t) :
  PutRequestBuilder.partition_key p = GetRequestBuilder.partition_key g →
  PutRequestBuilder.sort_key p = GetRequestBuilder.sort_key g →
  ∃ rp rg,
    outcome (PutRequestBuilder.build p) = Return rp
    ∧ outcome (GetRequestBuilder.build g) = Return rg
    ∧ pb.PutRequest.partition_key rp = pb.GetRequest.partition_key rg
    ∧ pb.PutRequest.sort_key rp = pb.GetRequest.sort_key rg.
Proof.
  intros Hpk Hsk. rewrite put_build_request. unfold GetRequestBuilder.build.
  eexists _, _. split; [reflexivity|]. split; [reflexivity|]. simpl.
  rewrite Hpk, Hsk. by destruct (GetRequestBuilder.sort_key g).
Qed.

Lemma put_get_same_key_witness :
  ∃ rp rg,
    outcome (PutRequestBuilder.build
               (PutRequestBuilder.with_number "age" "30"
                  (PutRequestBuilder.with_sort_key [x70]
                     (PutRequestBuilder.__init__ [x75]))))
    = Return rp
    ∧ outcome (GetRequestBuilder.build
                 (GetRequestBuilder.with_sort_key [x70] (GetRequestBuilder.__init__ [x75])))
      = Return rg
    ∧ pb.PutRequest.partition_key rp = pb.GetRequest.partition_key rg
    ∧ pb.PutRequest.sort_key rp = pb.GetRequest.sort_key rg.
Proof.
  apply (put_get_same_key
           (PutRequestBuilder.with_number "age" "30"
              (PutRequestBuilder.with_sort_key [x70] (PutRequestBuilder.__init__ [x75])))
           (GetRequestBuilder.with_sort_key [x70] (GetRequestBuilder.__init__ [x75])));
    reflexivity.
Defined.

(** ** Query builder: call sequences *)

Lemma query_calls_fields (cs : list QueryBuilderCall) (self : QueryRequestBuilder.t) :
  query_builder_calls cs self
  = QueryRequestBuilder.mk
      (QueryRequestBuilder.partition_key self)
      (last_sort_key_call cs (QueryRequestBuilder.sort_key_condition self))
      (QueryRequestBuilder.filter_expression self)
      (QueryRequestBuilder.expression_values self)
      (last_query_index cs (QueryRequestBuilder.index_name self))
      (last_query_limit cs (QueryRequestBuilder.limit self))
      (QueryRequestBuilder.exclusive_start_key self)
      (last_query_scan_forward cs (QueryRequestBuilder.scan_forward self)).
Proof.
  revert self. induction cs as [|c cs IH]; intros self; [by destruct self|].
  unfold query_builder_calls in *. simpl. rewrite IH. by destruct c.
Qed.

(** Whatever calls are chained on [QueryRequestBuilder(partition_key)], the
    request built at the end has the constructor's partition key; its
    sort-key condition, index name, limit and scan direction are those of the
    last call of the mutator concerned (unset when it was never called); and
    its filter expression, expression values and exclusive start key are
    unset, since no method of the builder assigns them. *)
Theorem query_calls_build (partition_key : bytes) (cs : list QueryBuilderCall) :
  outcome (QueryRequestBuilder.build
             (query_builder_calls cs (QueryRequestBuilder.__init__ partition_key)))
  = Return (QueryRequest.mk partition_key (last_sort_key_call cs None) None ∅
              (last_query_index cs None) (last_query_limit cs None) None
              (last_query_scan_forward cs None)).
Proof. by rewrite query_calls_fields. Qed.

(** Two calls on a query builder that assign different fields commute: the
    order of chained mutators matters only between mutators of the same
    field, and a [build] in the chain changes nothing. *)
Theorem query_calls_commute (c1 c2 : QueryBuilderCall) (self : QueryRequestBuilder.t) :
  query_call_field c1 ≠ query_call_field c2 →
  query_builder_call c1 (query_builder_call c2 self)
  = query_builder_call c2 (query_builder_call c1 self).
Proof.
  intros Hne. destruct c1, c2; simpl in *; try reflexivity; by destruct Hne.
Qed.

Lemma query_calls_commute_witness :
  QueryRequestBuilder.with_limit 10
    (QueryRequestBuilder.with_sort_key_between [x61] [x7a]
       (QueryRequestBuilder.__init__ [x6f]))
  = QueryRequestBuilder.with_sort_key_between [x61] [x7a]
      (QueryRequestBuilder.with_limit 10 (QueryRequestBuilder.__init__ [x6f])).
Proof.
  apply (query_calls_commute (query_with_limit 10) (query_with_sort_key_between [x61] [x7a])
           (QueryRequestBuilder.__init__ [x6f])).
  discriminate.
Defined.

(** ** Scan builder: call sequences *)

Lemma scan_calls_fields (cs : list ScanBuilderCall) (self : ScanRequestBuilder.t) :
  scan_builder_calls cs self
  = ScanRequestBuilder.mk
      (ScanRequestBuilder.filter_expression self)
      (ScanRequestBuilder.expression_values self)
      (last_scan_limit cs (ScanRequestBuilder.limit self))
      (ScanRequestBuilder.exclusive_start_key self)
      (ScanRequestBuilder.index_name self)
      (match last_scan_segment cs None with
       | Some (s, _) => Some s
       | None => ScanRequestBuilder.segment self
       end)
      (match last_scan_segment cs None with
       | Some (_, n) => Some n
       | None => ScanRequestBuilder.total_segments self
       end).
Proof.
  revert self. induction cs as [|c cs IH]; intros self; [by destruct self|].
  unfold scan_builder_calls in *. simpl. rewrite IH. clear IH.
  destruct c as [l|s n|]; simpl; try reflexivity.
  assert (Hseg : ∀ d, (∃ e, last_scan_segment cs (Some d) = Some e
                            ∧ last_scan_segment cs None = Some e)
                      ∨ (last_scan_segment cs (Some d) = Some d
                         ∧ last_scan_segment cs None = None)).
  { clear. induction cs as [|c cs IH]; intros d; simpl; [by right|].
    destruct c as [l|s n|]; [apply IH| |apply IH].
    left. destruct (IH (s, n)) as [(e & He1 & He2) | [He1 He2]].
    - exists e. by split.
    - exists (s, n). by split. }
  destruct (Hseg (s, n)) as [([s' n'] & -> & ->) | [-> ->]]; reflexivity.
Qed.

(** Whatever calls are chained on a fresh [ScanRequestBuilder], the request
    built at the end has the limit of the last [with_limit] call and the
    segment number and total of the last [with_segment] call (unset when
    there was no such call), and its filter expression, expression values,
    exclusive start key and index name are unset, since no method of the
    builder assigns them. *)
Theorem scan_calls_build (cs : list ScanBuilderCall) :
  outcome (ScanRequestBuilder.build (scan_builder_calls cs ScanRequestBuilder.__init__))
  = Return (ScanRequest.mk None ∅ (last_scan_limit cs None) None None
              (fst <$> last_scan_segment cs None) (snd <$> last_scan_segment cs None)).
Proof.
  rewrite scan_calls_fields. simpl.
  by destruct (last_scan_segment cs None) as [[s n]|].
Qed.

(** * Further properties of the client *)

(** ** Scan: every stream *)

(** A stream is free of errors, or it splits at its first chunk with one. *)
Lemma first_error_split (stream : list pb.ScanResponse.t) :
  Forall no_error stream
  ∨ ∃ pre bad post,
      stream = pre ++ bad :: post
      ∧ Forall no_error pre
      ∧ pb.ScanResponse.error bad ≠ "".
Proof.
  induction stream as [|response rest IH]; [by left|].
  destruct (str_truthy (pb.ScanResponse.error response)) eqn:Herr.
  - right. exists [], response, rest. split; [reflexivity|].
    split; [constructor | by apply str_truthy_true].
  - apply str_truthy_false in Herr.
    destruct IH as [Hok | (pre & bad & post & -> & Hpre & Hbad)].
    + left. by constructor.
    + right. exists (response :: pre), bad, post. split; [reflexivity|].
      split; [by constructor | exact Hbad].
Qed.

(** For every stream of chunks [Client.scan] does one of two things. Either
    no chunk has an error, and it reads the whole stream and returns all the
    items in order; or it raises for the first chunk with an error, with
    ["Scan error: "] and that chunk's text as message, leaving the chunks
    after it unread. In both cases the client is unchanged and the one call
    issued through the stub is the Scan call with the request given. *)
Theorem scan_outcome_cases {Channel Stub : Type}
    (self : Client.t Channel Stub) (request : ScanRequest.t)
    (stream : list pb.ScanResponse.t) :
  (Forall no_error stream
   ∧ Client.scan self request stream
     = (mkRun (Return (concat (pb.ScanResponse.items <$> stream))) self [RpcScan request],
        []))
  ∨ (∃ pre bad post,
       stream = pre ++ bad :: post
       ∧ Forall no_error pre
       ∧ pb.ScanResponse.error bad ≠ ""
       ∧ Client.scan self request stream
         = (mkRun (Raise (Exception ("Scan error: " +:+ pb.ScanResponse.error bad)))
              self [RpcScan request],
            post)).
Proof.
  destruct (first_error_split stream) as [Hok | (pre & bad & post & -> & Hpre & Hbad)].
  - left. split; [exact Hok|]. unfold Client.scan.
    by rewrite (scan_loop_no_error stream [] Hok).
  - right. exists pre, bad, post. split; [reflexivity|]. split; [exact Hpre|].
    split; [exact Hbad|]. unfold Client.scan.
    by rewrite (scan_loop_first_error pre post bad [] Hpre Hbad).
Qed.

(** A list returned by [Client.scan] is never partial: when the call
    returns, no chunk of the stream carried an error, every chunk was read,
    and the list is the concatenation of all the chunks' items. *)
Theorem scan_return_complete {Channel Stub : Type}
    (self : Client.t Channel Stub) (request : ScanRequest.t)
    (stream unread : list pb.ScanResponse.t) (result : list pb.Item)
    (self' : Client.t Channel Stub) (calls : list RpcCall) :
  Client.scan self request stream = (mkRun (Return result) self' calls, unread) →
  Forall no_error stream
  ∧ result = concat (pb.ScanResponse.items <$> stream)
  ∧ unread = []
  ∧ self' = self.
Proof.
  intros Hscan.
  destruct (scan_outcome_cases self request stream)
    as [[Hok Heq] | (pre & bad & post & _ & _ & _ & Heq)];
    rewrite Heq in Hscan; [|discriminate Hscan].
  injection Hscan as <- <- _ <-. by repeat split.
Qed.

Lemma scan_return_complete_witness :
  Forall no_error [chunk_A; chunk_B]
  ∧ [item_alice; item_bob; item_alice] = concat (pb.ScanResponse.items <$> [chunk_A; chunk_B])
  ∧ ([] : list pb.ScanResponse.t) = []
  ∧ sample_client = sample_client.
Proof.
  apply (scan_return_complete sample_client sample_scan_request [chunk_A; chunk_B] []
           [item_alice; item_bob; item_alice] sample_client [RpcScan sample_scan_request]).
  reflexivity.
Defined.

(** ** Scan: an iterator that can fail *)

(** On events that are all chunks the two loops agree. *)
Lemma scan_loop_events_chunks (stream : list pb.ScanResponse.t) (acc : list pb.Item) :
  Client.scan_loop_events (yields <$> stream) acc
  = ((Client.scan_loop stream acc).1, yields <$> (Client.scan_loop stream acc).2).
Proof.
  revert acc. induction stream as [|response rest IH]; intros acc; [reflexivity|].
  simpl. destruct (str_truthy (pb.ScanResponse.error response)); [reflexivity|].
  apply IH.
Qed.

(** Why the loop raised: the events read so far were chunks without errors,
    and the next one was a chunk with an error or a failure of the iterator. *)
Lemma scan_loop_events_raise (events unread : list StreamEvent) (acc : list pb.Item)
    (e : PyException) :
  Client.scan_loop_events events acc = (Raise e, unread) →
  ∃ pre,
    Forall no_error pre
    ∧ ((∃ bad,
          events = (yields <$> pre) ++ yields bad :: unread
          ∧ pb.ScanResponse.error bad ≠ ""
          ∧ e = Exception ("Scan error: " +:+ pb.ScanResponse.error bad))
       ∨ events = (yields <$> pre) ++ iterator_raises e :: unread).
Proof.
  revert acc. induction events as [|ev rest IH]; intros acc Hloop; [discriminate Hloop|].
  destruct ev as [response|e']; simpl in Hloop.
  - destruct (str_truthy (pb.ScanResponse.error response)) eqn:Herr.
    + injection Hloop as <- <-. exists []. split; [constructor|]. left.
      exists response. split; [reflexivity|].
      split; [by apply str_truthy_true | reflexivity].
    + apply str_truthy_false in Herr.
      destruct (IH _ Hloop) as (pre & Hpre & Hcase).
      exists (response :: pre). split; [by constructor|].
      destruct Hcase as [(bad & -> & Hbad & ->) | ->].
      * left. exists bad. by repeat split.
      * by right.
  - injection Hloop as <- <-. exists []. split; [constructor|]. by right.
Qed.

(** When [Client.scan] raises, with a response iterator that may itself
    fail, there are two cases and no other. Either the chunks read before
    were free of errors and the next chunk carried a non-empty error: the
    exception is the built-in [Exception] with ["Scan error: "] and that
    chunk's text. Or the chunks read before were free of errors and the
    iterator raised: that exception leaves [scan] unchanged, not wrapped and
    not retried. In both cases nothing after that point was read, no item is
    returned, and the client is as it was. *)
Theorem scan_events_raise_cases {Channel Stub : Type}
    (self self' : Client.t Channel Stub) (request : ScanRequest.t)
    (events unread : list StreamEvent) (e : PyException) (calls : list RpcCall) :
  Client.scan_events self request events = (mkRun (Raise e) self' calls, unread) →
  self' = self
  ∧ calls = [RpcScan request]
  ∧ ∃ pre,
      Forall no_error pre
      ∧ ((∃ bad,
            events = (yields <$> pre) ++ yields bad :: unread
            ∧ pb.ScanResponse.error bad ≠ ""
            ∧ e = Exception ("Scan error: " +:+ pb.ScanResponse.error bad))
         ∨ events = (yields <$> pre) ++ iterator_raises e :: unread).
Proof.
  unfold Client.scan_events. intros Hscan.
  destruct (Client.scan_loop_events events []) as [o rest] eqn:Hloop.
  injection Hscan as -> <- <- <-.
  split; [reflexivity|]. split; [reflexivity|].
  exact (scan_loop_events_raise events rest [] e Hloop).
Qed.

Lemma scan_events_raise_cases_witness :
  sample_client = sample_client
  ∧ [RpcScan sample_scan_request] = [RpcScan sample_scan_request]
  ∧ ∃ pre,
      Forall no_error pre
      ∧ ((∃ bad,
            [yields chunk_A; iterator_raises sample_rpc_error; yields chunk_B]
            = (yields <$> pre) ++ yields bad :: [yields chunk_B]
            ∧ pb.ScanResponse.error bad ≠ ""
            ∧ sample_rpc_error = Exception ("Scan error: " +:+ pb.ScanResponse.error bad))
         ∨ [yields chunk_A; iterator_raises sample_rpc_error; yields chunk_B]
           = (yields <$> pre) ++ iterator_raises sample_rpc_error :: [yields chunk_B]).
Proof.
  apply (scan_events_raise_cases sample_client sample_client sample_scan_request
           [yields chunk_A; iterator_raises sample_rpc_error; yields chunk_B]
           [yields chunk_B] sample_rpc_error [RpcScan sample_scan_request]).
  reflexivity.
Defined.

(** ** The client as a context manager *)

(** Provided the channel's own [close] does not raise: a [with] statement on
    a client has the outcome of its body, so an exception raised in the body
    is raised again and not swallowed, and whether the body returns or
    raises the client is left as [close] leaves the client the body left,
    with the channel closed once more after the body. *)
Theorem with_statement_closes {Channel Stub A : Type}
    (channel_close : Channel → Outcome unit * Channel)
    (self : Client.t Channel Stub)
    (body : Client.t Channel Stub → Run (Client.t Channel Stub) A) :
  (∀ ch, (channel_close ch).1 = Return tt) →
  outcome (Client.with_statement channel_close self body) = outcome (body self)
  ∧ self_after (Client.with_statement channel_close self body)
    = self_after (Client.close channel_close (self_after (body self)))
  ∧ Client._channel (self_after (Client.with_statement channel_close self body))
    = (λ ch, (channel_close ch).2) <$> Client._channel (self_after (body self))
  ∧ rpc_calls (Client.with_statement channel_close self body) = rpc_calls (body self).
Proof.
  intros Hret. unfold Client.with_statement, Client.__enter__, Client.__exit__. simpl.
  pose proof (close_returns channel_close Hret (self_after (body self))) as [Ho Hcalls].
  rewrite Ho, Hcalls, app_nil_r. split; [reflexivity|]. split; [reflexivity|].
  split; [|reflexivity].
  unfold Client.close. destruct (Client._channel (self_after (body self))) as [ch|] eqn:Hch.
  - simpl. by destruct (channel_close ch).
  - simpl. exact Hch.
Qed.

Lemma with_statement_closes_witness :
  outcome (Client.with_statement grpc_channel_close sample_client sample_scan_body)
  = outcome (sample_scan_body sample_client)
  ∧ self_after (Client.with_statement grpc_channel_close sample_client sample_scan_body)
    = self_after (Client.close grpc_channel_close
                    (self_after (sample_scan_body sample_client)))
  ∧ Client._channel
      (self_after (Client.with_statement grpc_channel_close sample_client sample_scan_body))
    = (λ ch, (grpc_channel_close ch).2)
        <$> Client._channel (self_after (sample_scan_body sample_client))
  ∧ rpc_calls (Client.with_statement grpc_channel_close sample_client sample_scan_body)
    = rpc_calls (sample_scan_body sample_client).
Proof.
  apply (with_statement_closes grpc_channel_close sample_client sample_scan_body).
  intros ch. reflexivity.
Defined.
